(** * NumbaDistance: the facade of the numba distance metrics

    A shallow embedding of [sktime/dists_kernels/numba/distances/base/_base.py]:
    the abstract class [NumbaDistance] with its static validator
    [_validate_factory_timeseries], the template method [distance_factory],
    the static convenience entry point [distance] and the abstract hook
    [_distance_factory] that concrete metrics implement.

    Python objects live in a heap; a computation threads the heap together
    with a trace of the operations it performed and either returns a value
    or raises an exception. *)

From Stdlib Require Import PrimFloat ZArith.
From stdpp Require Import gmap strings list.

Open Scope Z_scope.

(** ** Values, arrays and heap objects *)

Definition loc := positive.

Inductive dtype := float64 | float32 | int64 | bool8.

(** A numpy array: its shape (one extent per axis), the element type and the
    row-major buffer. *)
Record ndarray := NdArray {
  shape : list nat;
  dtype_of : dtype;
  buffer : list float
}.

Definition ndim (a : ndarray) : nat := length (shape a).

(** Immutable values are immediate; everything mutable or callable is a
    reference into the heap. *)
Inductive value :=
| VNone
| VBool (b : bool)
| VInt (n : Z)
| VFloat (f : float)
| VStr (s : string)
| VRef (l : loc).

Inductive exc_class :=
| TypeError
| ValueError
| RuntimeError
| AttributeError
| OtherError (name : string).

Record exception := Exception { exc_type : exc_class; exc_msg : string }.

Inductive result (A : Type) :=
| Ok (a : A)
| Raise (e : exception).
Arguments Ok {A} a.
Arguments Raise {A} e.

(** The body of a [DistanceCallable]: [Callable[[np.ndarray, np.ndarray], float]]. *)
Definition routine := ndarray -> ndarray -> result float.

(** A numba signature: element type and rank of each of the two operands. *)
Definition signature : Type := (dtype * nat) * (dtype * nat).

Inductive pyobject :=
| OList (items : list value)
| ONdarray (a : ndarray)
| OFunction (body : routine)
    (* an interpreted function object: it has no attribute [signatures] *)
| ODispatcher (signatures : list signature) (body : routine)
    (* what numba's [njit] returns: it carries the attribute [signatures] *)
| OMetric (cls : string)
    (* an instance of the concrete subclass [cls] of [NumbaDistance] *)
| OInstance (cls : string) (attrs : gmap string value)
    (* an instance of any other class that defines no [__call__], with its
       attribute dictionary *)
| OCallable (cls : string) (attrs : gmap string value) (body : routine).
    (* an instance of a class that defines [__call__] *)

(** ** State: the heap and the trace of operations *)

Inductive event :=
| EvValidate (x : value)
    (* [_validate_factory_timeseries(x)] was entered *)
| EvNdim (x : value)
    (* [x.ndim] was read *)
| EvSpecialize (self x y : value) (kwargs : gmap string value)
    (* [self._distance_factory(x, y, **kwargs)] was entered *)
| EvInvoke (f x y : value).
    (* [f(x, y)] was entered *)

(** The trace records what the interpreter did; no Python code reads it. *)
Record state := State {
  heap : gmap loc pyobject;
  trace : list event
}.

Definition M (A : Type) : Type := state -> result A * state.

Definition ret {A} (a : A) : M A := fun s => (Ok a, s).

Definition raise {A} (e : exception) : M A := fun s => (Raise e, s).

Definition bind {A B} (m : M A) (k : A -> M B) : M B :=
  fun s =>
    match m s with
    | (Ok a, s') => k a s'
    | (Raise e, s') => (Raise e, s')
    end.

Declare Scope py_scope.
Delimit Scope py_scope with py.
Notation "x <- m ;; k" := (bind m (fun x => k))
  (at level 100, m at next level, right associativity) : py_scope.
Notation "m ;; k" := (bind m (fun _ => k))
  (at level 100, right associativity) : py_scope.
Open Scope py_scope.

Definition get_heap : M (gmap loc pyobject) := fun s => (Ok (heap s), s).

Definition log (e : event) : M unit :=
  fun s => (Ok tt, State (heap s) (trace s ++ [e])).

(** The implementation a concrete metric gives to the abstract method
    [_distance_factory(self, x, y, **kwargs)]: it may read and write the heap
    (allocate the callable it returns, fill a compilation cache), and it
    returns or raises. *)
Definition specializer : Type :=
  value -> value -> value -> gmap string value ->
  gmap loc pyobject -> result value * gmap loc pyobject.

(** ** Interpreter primitives the facade uses *)

(** [isinstance(x, np.ndarray)] *)
Definition isinstance_ndarray (h : gmap loc pyobject) (x : value) : bool :=
  match x with
  | VRef l => match h !! l with Some (ONdarray _) => true | _ => false end
  | _ => false
  end.

(** [hasattr(x, name)], for the attributes the facade asks about. *)
Definition hasattr (h : gmap loc pyobject) (x : value) (name : string) : bool :=
  match x with
  | VRef l =>
      match h !! l with
      | Some (ONdarray _) => bool_decide (name = "ndim")
      | Some (ODispatcher _ _) => bool_decide (name = "signatures")
      | Some (OInstance _ attrs) | Some (OCallable _ attrs _) =>
          bool_decide (is_Some (attrs !! name))
      | _ => false
      end
  | _ => false
  end.

(** The array a value refers to, when it is one. *)
Definition array_at (h : gmap loc pyobject) (x : value) : option ndarray :=
  match x with
  | VRef l => match h !! l with Some (ONdarray a) => Some a | _ => None end
  | _ => None
  end.

(** [type(x).__name__] *)
Definition type_name (h : gmap loc pyobject) (x : value) : string :=
  match x with
  | VNone => "NoneType"
  | VBool _ => "bool"
  | VInt _ => "int"
  | VFloat _ => "float"
  | VStr _ => "str"
  | VRef l =>
      match h !! l with
      | Some (OList _) => "list"
      | Some (ONdarray _) => "numpy.ndarray"
      | Some (OFunction _) => "function"
      | Some (ODispatcher _ _) => "CPUDispatcher"
      | Some (OMetric cls) | Some (OInstance cls _) | Some (OCallable cls _ _) => cls
      | None => "object"
      end
  end.

(** The value of [x.ndim], when [x] has that attribute. *)
Definition lookup_ndim (h : gmap loc pyobject) (x : value) : option value :=
  match x with
  | VRef l =>
      match h !! l with
      | Some (ONdarray a) => Some (VInt (Z.of_nat (ndim a)))
      | Some (OInstance _ attrs) | Some (OCallable _ attrs _) => attrs !! "ndim"
      | _ => None
      end
  | _ => None
  end.

(** [v != 2]: numbers compare by value, anything else differs from 2. *)
Definition ne_2 (v : value) : bool :=
  match v with
  | VInt m => negb (m =? 2)
  | VBool _ => true
  | VFloat f => negb (PrimFloat.eqb f 2%float)
  | _ => true
  end.

(** Positional and keyword arguments are bound to the parameters of a
    function [def fname(p1, ..., pn, **kwargs)]: positional arguments fill
    the parameters from the left, a keyword that names a filled parameter is
    an error, a keyword that names an unfilled one fills it, the remaining
    keywords are collected, and a parameter left unfilled is an error.
    Every binding error is a [TypeError]; the messages follow CPython's
    wording for a repeated and for a missing argument. *)
Fixpoint bind_args (fname : string) (params : list string) (args : list value)
    (kwargs : gmap string value) : result (list value * gmap string value) :=
  match params with
  | [] =>
      match args with
      | [] => Ok ([], kwargs)
      | _ :: _ =>
          Raise (Exception TypeError
                   (fname +:+ "() takes fewer positional arguments than were given"))
      end
  | p :: params' =>
      match args with
      | a :: args' =>
          match kwargs !! p with
          | Some _ =>
              Raise (Exception TypeError
                       (fname +:+ "() got multiple values for argument '" +:+ p +:+ "'"))
          | None =>
              match bind_args fname params' args' kwargs with
              | Ok (vs, rest) => Ok (a :: vs, rest)
              | Raise e => Raise e
              end
          end
      | [] =>
          match kwargs !! p with
          | Some v =>
              match bind_args fname params' [] (delete p kwargs) with
              | Ok (vs, rest) => Ok (v :: vs, rest)
              | Raise e => Raise e
              end
          | None =>
              Raise (Exception TypeError
                       (fname +:+ "() missing 1 required positional argument: '" +:+ p +:+ "'"))
          end
      end
  end.

(** [f(x, y)] for a value [f]: function objects and instances of a class
    with [__call__] are callable, anything else is not; the routines are
    typed for arrays. *)
Definition call_callable (f x y : value) : M value :=
  log (EvInvoke f x y) ;;
  h <- get_heap ;;
  match f with
  | VRef lf =>
      match h !! lf with
      | Some (OFunction body) | Some (ODispatcher _ body)
      | Some (OCallable _ _ body) =>
          match array_at h x, array_at h y with
          | Some a, Some b =>
              match body a b with
              | Ok d => ret (VFloat d)
              | Raise e => raise e
              end
          | _, _ => raise (Exception TypeError "argument is not an array")
          end
      | _ =>
          raise (Exception TypeError
                   ("'" +:+ type_name h f +:+ "' object is not callable"))
      end
  | _ =>
      raise (Exception TypeError
               ("'" +:+ type_name h f +:+ "' object is not callable"))
  end.

(** ** The class NumbaDistance *)

Definition not_ndarray_msg (sx : string) : string :=
  "The array " +:+ sx +:+
  " is not a numpy array. Please ensure itis a 2d numpy and try again.".

Definition wrong_ndim_msg (sx : string) : string :=
  "The array " +:+ sx +:+
  " has the incorrect number of dimensions.Ensure the array has exactly 2 dimensions and try again.".

Definition not_compiled_msg : string :=
  "The distance metric specified could not be no_pythoncompiled. Try again and if the problem persists raisean issue.".

Section NumbaDistance.

(** [format(x, '')], what an f-string field [{x}] expands to, runs the
    formatting method of the type of [x]. For a numeric array that is
    numpy's, which returns text and touches nothing. *)
Variable format_array : ndarray -> string.

(** For anything else it is the [__format__], [__str__] or [__repr__] of
    the operand's class, run on the heap: it may raise, and it may write. *)
Variable format_object :
  value -> gmap loc pyobject -> result string * gmap loc pyobject.

(** The concrete subclasses: the [_distance_factory] each one defines. *)
Variable method_table : string -> option specializer.

(** [x.ndim] *)
Definition getattr_ndim (x : value) : M value :=
  log (EvNdim x) ;;
  h <- get_heap ;;
  match lookup_ndim h x with
  | Some v => ret v
  | None => raise (Exception AttributeError "object has no attribute 'ndim'")
  end.

(** [f"...{x}..."] *)
Definition fstring (template : string -> string) (x : value) : M string :=
  h <- get_heap ;;
  match array_at h x with
  | Some a => ret (template (format_array a))
  | None =>
      fun s =>
        let '(r, h') := format_object x (heap s) in
        (match r with
         | Ok sx => Ok (template sx)
         | Raise e => Raise e
         end,
         State h' (trace s))
  end.

Definition _validate_factory_timeseries (x : value) : M unit :=
  log (EvValidate x) ;;
  h <- get_heap ;;
  if negb (isinstance_ndarray h x) then
    msg <- fstring not_ndarray_msg x ;;
    raise (Exception ValueError msg)
  else
    n <- getattr_ndim x ;;
    if ne_2 n then
      msg <- fstring wrong_ndim_msg x ;;
      raise (Exception ValueError msg)
    else ret tt.

(** The call [self._distance_factory(x, y, **kwargs)]: the method is looked
    up in the class of [self] and run on the heap. *)
Definition _distance_factory (self x y : value) (kwargs : gmap string value)
    : M value :=
  h <- get_heap ;;
  match self with
  | VRef l =>
      match h !! l with
      | Some (OMetric cls) =>
          match method_table cls with
          | Some impl =>
              log (EvSpecialize self x y kwargs) ;;
              (fun s =>
                 let '(r, h') := impl self x y kwargs (heap s) in
                 (r, State h' (trace s)))
          | None =>
              raise (Exception AttributeError
                       "object has no attribute '_distance_factory'")
          end
      | _ =>
          raise (Exception AttributeError
                   "object has no attribute '_distance_factory'")
      end
  | _ =>
      raise (Exception AttributeError
               "object has no attribute '_distance_factory'")
  end.

Definition distance_factory (self x y : value) (kwargs : gmap string value)
    : M value :=
  _validate_factory_timeseries x ;;
  _validate_factory_timeseries y ;;
  no_python_callable <- _distance_factory self x y kwargs ;;
  h <- get_heap ;;
  if negb (hasattr h no_python_callable "signatures") then
    raise (Exception RuntimeError not_compiled_msg)
  else ret no_python_callable.

(** The function object [NumbaDistance.distance_factory] applied to
    arguments: [def distance_factory(self, x, y, **kwargs)]. *)
Definition call_distance_factory (args : list value)
    (kwargs : gmap string value) : M value :=
  match bind_args "distance_factory" ["self"; "x"; "y"] args kwargs with
  | Ok ([self; x; y], kwargs') => distance_factory self x y kwargs'
  | Ok _ => raise (Exception TypeError "distance_factory() arguments")
  | Raise e => raise e
  end.

(** The body of the static method [distance]: the factory is reached
    through the class, [NumbaDistance.distance_factory(x, y, **kwargs)],
    so nothing is bound to it in advance. *)
Definition distance (x y : value) (kwargs : gmap string value) : M value :=
  dist_callable <- call_distance_factory [x; y] kwargs ;;
  call_callable dist_callable x y.

(** [NumbaDistance.distance] applied to arguments:
    [def distance(x, y, **kwargs)], a static method. *)
Definition call_distance (args : list value) (kwargs : gmap string value)
    : M value :=
  match bind_args "distance" ["x"; "y"] args kwargs with
  | Ok ([x; y], kwargs') => distance x y kwargs'
  | Ok _ => raise (Exception TypeError "distance() arguments")
  | Raise e => raise e
  end.

End NumbaDistance.

(** ** Concrete metrics *)

(** The shape and element type of an operand, when it is an array: what a
    specialization may depend on besides the configuration. *)
Definition operand_type (h : gmap loc pyobject) (x : value)
    : option (list nat * dtype) :=
  match x with
  | VRef l =>
      match h !! l with
      | Some (ONdarray a) => Some (shape a, dtype_of a)
      | _ => None
      end
  | _ => None
  end.

(** The numba type of an operand: element type and rank. *)
Definition numba_type (t : option (list nat * dtype)) : dtype * nat :=
  match t with
  | Some (sh, d) => (d, length sh)
  | None => (float64, 0%nat)
  end.

(** Modelled from the spec: the concrete metrics (the subclasses of
    [NumbaDistance] with their [_distance_factory] and [_numba_distance]) are
    missing from the source. By the specializer contract a metric is
    stateless and offers two things: its raw, unspecialized scalar routine,
    and the routine to specialize for a configuration and the shape and
    element type of the two operands, unless it rejects the configuration as
    invalid for the metric. *)
Record metric := Metric {
  raw_distance : routine;
  configured :
    option (list nat * dtype) -> option (list nat * dtype) ->
    gmap string value -> result routine
}.

(** Modelled from the spec: the compilation backend is missing from the
    source. It accepts a generic scalar-producing routine and a concrete call
    signature and returns a specialized callable exposing the marker; the
    specialized callable computes what the routine computes. *)
Definition njit (body : routine) (sig : signature) : pyobject :=
  ODispatcher [sig] body.

(** Modelled from the spec: [build_specialized(x, y, config)] of a concrete
    metric, missing from the source: the configuration is checked, the
    configured routine is handed to the backend for the signature of the
    operands, and the new callable is returned. *)
Definition build_specialized (m : metric) : specializer :=
  fun self x y kwargs h =>
    let tx := operand_type h x in
    let ty := operand_type h y in
    match configured m tx ty kwargs with
    | Raise e => (Raise e, h)
    | Ok body =>
        let l := fresh (dom h) in
        (Ok (VRef l), <[l := njit body (numba_type tx, numba_type ty)]> h)
    end.

(** Modelled from the spec: the example metric sum-of-absolute-difference,
    which takes no configuration. *)
Definition sum_abs_diff : routine :=
  fun a b =>
    Ok (fold_left (fun acc p => (acc + abs (fst p - snd p))%float)
                  (zip (buffer a) (buffer b)) 0%float).

Definition SumAbsDiff : metric :=
  {| raw_distance := sum_abs_diff;
     configured := fun _ _ _ => Ok sum_abs_diff |}.

(** A metric whose [_distance_factory] returns its interpreted routine
    without compiling it. *)
Definition interpreted_factory : specializer :=
  fun self x y kwargs h =>
    let l := fresh (dom h) in
    (Ok (VRef l), <[l := OFunction sum_abs_diff]> h).

(** A metric whose [_distance_factory] lets the error of the compilation
    backend through. *)
Definition untypable_factory : specializer :=
  fun self x y kwargs h =>
    (Raise (Exception (OtherError "numba.core.errors.TypingError")
                      "Failed in nopython mode pipeline"), h).

Definition example_classes (cls : string) : option specializer :=
  if decide (cls = "SumAbsDiff") then Some (build_specialized SumAbsDiff)
  else if decide (cls = "Interpreted") then Some interpreted_factory
  else if decide (cls = "Untypable") then Some untypable_factory
  else None.

(** Formatters that elide the contents of what they format. An instance of
    the class [Boom] raises when formatted, as with
    [def __str__(self): raise AttributeError("boom")]; an instance of the
    class [Counter] counts how often it was formatted, as with
    [def __str__(self): self.n += 1; return "<counter>"]. *)
Definition example_format_array (a : ndarray) : string := "[...]".

Definition example_format_object (x : value) (h : gmap loc pyobject)
    : result string * gmap loc pyobject :=
  match x with
  | VNone => (Ok "None", h)
  | VBool true => (Ok "True", h)
  | VBool false => (Ok "False", h)
  | VStr s => (Ok s, h)
  | VRef l =>
      match h !! l with
      | Some (OInstance cls attrs) =>
          if decide (cls = "Boom") then
            (Raise (Exception AttributeError "boom"), h)
          else if decide (cls = "Counter") then
            let n := match attrs !! "n" with Some (VInt n) => n | _ => 0 end in
            (Ok "<counter>",
             <[l := OInstance cls (<["n" := VInt (n + 1)]> attrs)]> h)
          else (Ok "<object>", h)
      | _ => (Ok "<object>", h)
      end
  | _ => (Ok "<number>", h)
  end.

(** [x = np.array([[0., 1., 2.]])], [y = np.array([[0., 0., 0.]])], the flat
    series [np.array([0., 1., 2.])], the nested list [[[0, 1, 2]]] and one
    instance of each example metric. *)
Definition example_heap : gmap loc pyobject :=
  <[1%positive := OMetric "SumAbsDiff"]>
  (<[2%positive := ONdarray (NdArray [1; 3]%nat float64 [0; 1; 2]%float)]>
  (<[3%positive := ONdarray (NdArray [1; 3]%nat float64 [0; 0; 0]%float)]>
  (<[4%positive := ONdarray (NdArray [3]%nat float64 [0; 1; 2]%float)]>
  (<[5%positive := OList [VInt 0; VInt 1; VInt 2]]>
  (<[6%positive := OList [VRef 5%positive]]>
  (<[7%positive := OMetric "Interpreted"]>
  (<[8%positive := OMetric "Untypable"]>
  (<[9%positive := OInstance "DataFrame" {[ "ndim" := VInt 2 ]}]> ∅)))))))).

Definition example_state : state := State example_heap [].

Definition the_metric : value := VRef 1%positive.
Definition series_x : value := VRef 2%positive.
Definition series_y : value := VRef 3%positive.
Definition flat_series : value := VRef 4%positive.
Definition nested_list : value := VRef 6%positive.
Definition interpreted_metric : value := VRef 7%positive.
Definition data_frame : value := VRef 9%positive.

Abbreviation example_validate :=
  (_validate_factory_timeseries example_format_array example_format_object).

Abbreviation example_factory :=
  (distance_factory example_format_array example_format_object
     example_classes).

(** A metric whose [_distance_factory] returns a dispatcher that has not
    compiled anything yet: its list of signatures is empty. *)
Definition lazy_factory : specializer :=
  fun self x y kwargs h =>
    let l := fresh (dom h) in
    (Ok (VRef l), <[l := ODispatcher [] sum_abs_diff]> h).

(** A metric whose [_distance_factory] returns an object that is no function
    and merely has an attribute named [signatures]. *)
Definition mock_factory : specializer :=
  fun self x y kwargs h =>
    let l := fresh (dom h) in
    (Ok (VRef l), <[l := OInstance "Mock" {[ "signatures" := VNone ]}]> h).

Definition more_classes (cls : string) : option specializer :=
  if decide (cls = "Lazy") then Some lazy_factory
  else if decide (cls = "Mock") then Some mock_factory
  else example_classes cls.

(** The example heap with an instance of each of the two metrics above and
    the empty integer matrix [np.zeros((0, 0), dtype=np.int64)]. *)
Definition more_heap : gmap loc pyobject :=
  <[20%positive := OMetric "Lazy"]>
  (<[21%positive := OMetric "Mock"]>
  (<[22%positive := ONdarray (NdArray [0; 0]%nat int64 [])]> example_heap)).

Definition more_state : state := State more_heap [].

Definition lazy_metric : value := VRef 20%positive.




(** ** The vocabulary of the properties *)

Inductive verdict := Valid | WrongType | WrongRank.

(** A value is a time series when it is a numpy array with exactly two
    dimensions; anything that is not an array is of the wrong type, and an
    array of any other dimensionality has the wrong rank. *)
Definition verdict_of (h : gmap loc pyobject) (x : value) : verdict :=
  match x with
  | VRef l =>
      match h !! l with
      | Some (ONdarray a) => if (ndim a =? 2)%nat then Valid else WrongRank
      | _ => WrongType
      end
  | _ => WrongType
  end.

Definition is_validate (e : event) : bool :=
  match e with EvValidate _ => true | _ => false end.

Definition is_specialize (e : event) : bool :=
  match e with EvSpecialize _ _ _ _ => true | _ => false end.


(** The method calls among the events: attribute reads are left out. *)
Definition is_call (e : event) : bool :=
  match e with EvNdim _ => false | _ => true end.

(** The state after the events [evs] were recorded and nothing else changed. *)
Definition extend (s : state) (evs : list event) : state :=
  State (heap s) (trace s ++ evs).

(** The events a computation appends to the trace when run from [s]. *)
Definition events_of {A} (m : M A) (s : state) : list event :=
  drop (length (trace s)) (trace (snd (m s))).

(** The two errors of the validator, for the text [sx] the operand was
    formatted to: both are [ValueError]s, told apart by their message. *)
Definition wrong_type_error (sx : string) : exception :=
  Exception ValueError (not_ndarray_msg sx).

Definition wrong_rank_error (sx : string) : exception :=
  Exception ValueError (wrong_ndim_msg sx).

(** The error of the post-condition check. *)
Definition compilation_error : exception :=
  Exception RuntimeError not_compiled_msg.


Section Properties.

Variable format_array : ndarray -> string.
Variable format_object :
  value -> gmap loc pyobject -> result string * gmap loc pyobject.
Variable method_table : string -> option specializer.

Abbreviation validate :=
  (_validate_factory_timeseries format_array format_object).
Abbreviation factory :=
  (distance_factory format_array format_object method_table).
Abbreviation specialize := (_distance_factory method_table).

(** What the validator raises on [x] and the heap it leaves then; nothing
    when it accepts [x]. A rejected array is formatted by numpy; anything
    else by its own class, whose exception comes in place of the
    validator's when it raises. *)
Definition rejection (h : gmap loc pyobject) (x : value)
    : option (exception * gmap loc pyobject) :=
  match array_at h x with
  | Some a =>
      if (ndim a =? 2)%nat then None
      else Some (wrong_rank_error (format_array a), h)
  | None =>
      Some (match fst (format_object x h) with
            | Ok sx => wrong_type_error sx
            | Raise e => e
            end,
            snd (format_object x h))
  end.

Definition validate_events (h : gmap loc pyobject) (x : value) : list event :=
  match verdict_of h x with
  | WrongType => [EvValidate x]
  | _ => [EvValidate x; EvNdim x]
  end.

(** The specializer the interpreter finds for [self._distance_factory]. *)
Definition resolve (h : gmap loc pyobject) (self : value) : option specializer :=
  match self with
  | VRef l =>
      match h !! l with
      | Some (OMetric cls) => method_table cls
      | _ => None
      end
  | _ => None
  end.

(** The post-condition check of [distance_factory] on what the specializer
    gave back. *)
Definition checked (r : result value) (h : gmap loc pyobject) : result value :=
  match r with
  | Ok c =>
      if hasattr h c "signatures" then Ok c
      else Raise compilation_error
  | Raise e => Raise e
  end.

(** Every run of the factory is of one of four shapes. *)
Inductive factory_run (self x y : value) (kwargs : gmap string value)
    (s : state) : result value * state -> Prop :=
| run_invalid_x e h' :
    rejection (heap s) x = Some (e, h') ->
    factory_run self x y kwargs s
      (Raise e, State h' (trace s ++ validate_events (heap s) x))
| run_invalid_y e h' :
    verdict_of (heap s) x = Valid ->
    rejection (heap s) y = Some (e, h') ->
    factory_run self x y kwargs s
      (Raise e,
       State h' (trace s ++ [EvValidate x; EvNdim x] ++
                 validate_events (heap s) y))
| run_unresolved :
    verdict_of (heap s) x = Valid ->
    verdict_of (heap s) y = Valid ->
    resolve (heap s) self = None ->
    factory_run self x y kwargs s
      (Raise (Exception AttributeError
                "object has no attribute '_distance_factory'"),
       extend s [EvValidate x; EvNdim x; EvValidate y; EvNdim y])
| run_specialized impl :
    verdict_of (heap s) x = Valid ->
    verdict_of (heap s) y = Valid ->
    resolve (heap s) self = Some impl ->
    factory_run self x y kwargs s
      (checked (fst (impl self x y kwargs (heap s)))
               (snd (impl self x y kwargs (heap s))),
       State (snd (impl self x y kwargs (heap s)))
             (trace s ++ [EvValidate x; EvNdim x; EvValidate y; EvNdim y;
                          EvSpecialize self x y kwargs])).

(** ** Running the monad *)

Lemma bind_ok {A B} (m : M A) (k : A -> M B) s a s' :
  m s = (Ok a, s') -> bind m k s = k a s'.
Proof. intros H. unfold bind. now rewrite H. Qed.

Lemma bind_raise {A B} (m : M A) (k : A -> M B) s e s' :
  m s = (Raise e, s') -> bind m k s = (Raise e, s').
Proof. intros H. unfold bind. now rewrite H. Qed.

Lemma extend_extend s evs evs' :
  extend (extend s evs) evs' = extend s (evs ++ evs').
Proof. unfold extend. simpl. now rewrite app_assoc. Qed.

Lemma of_nat_eqb_2 (n : nat) : (Z.of_nat n =? 2) = (n =? 2)%nat.
Proof.
  destruct (Nat.eqb_spec n 2) as [->|Hn]; [reflexivity|].
  apply Z.eqb_neq. lia.
Qed.

(** ** Argument binding *)

Lemma bind_args_length fname params : forall args kwargs vs rest,
  bind_args fname params args kwargs = Ok (vs, rest) ->
  length vs = length params.
Proof.
  induction params as [|p params IH]; intros args kwargs vs rest H; simpl in H.
  - destruct args; [|discriminate]. now inversion H.
  - destruct args as [|a args].
    + destruct (kwargs !! p); [|discriminate].
      destruct (bind_args fname params [] (delete p kwargs)) as [[vs' rest']|] eqn:E;
        [|discriminate].
      inversion H; subst. simpl. f_equal. eauto.
    + destruct (kwargs !! p); [discriminate|].
      destruct (bind_args fname params args kwargs) as [[vs' rest']|] eqn:E;
        [|discriminate].
      inversion H; subst. simpl. f_equal. eauto.
Qed.

(** A keyword survives the binding only if it was given and names no
    parameter. *)
Lemma bind_args_rest_None fname params : forall args kwargs vs rest,
  bind_args fname params args kwargs = Ok (vs, rest) ->
  forall q, q ∈ params \/ kwargs !! q = None -> rest !! q = None.
Proof.
  induction params as [|p params IH]; intros args kwargs vs rest H q Hq; simpl in H.
  - destruct args; [|discriminate]. inversion H; subst.
    destruct Hq as [Hq|Hq]; [inversion Hq | assumption].
  - destruct args as [|a args].
    + destruct (kwargs !! p) eqn:Ep; [|discriminate].
      destruct (bind_args fname params [] (delete p kwargs)) as [[vs' rest']|] eqn:E;
        [|discriminate].
      inversion H; subst. apply (IH _ _ _ _ E).
      destruct (decide (q = p)) as [->|Hne].
      * right. apply lookup_delete_eq.
      * destruct Hq as [Hq|Hq].
        -- left. apply elem_of_cons in Hq as [?|?]; [congruence | assumption].
        -- right. now rewrite lookup_delete_ne.
    + destruct (kwargs !! p) eqn:Ep; [discriminate|].
      destruct (bind_args fname params args kwargs) as [[vs' rest']|] eqn:E;
        [|discriminate].
      inversion H; subst. apply (IH _ _ _ _ E).
      destruct (decide (q = p)) as [->|Hne]; [now right|].
      destruct Hq as [Hq|Hq]; [left | now right].
      apply elem_of_cons in Hq as [?|?]; [congruence | assumption].
Qed.

(** No keyword left over by the binding names a parameter. *)
Lemma bind_args_rest fname params args kwargs vs rest :
  bind_args fname params args kwargs = Ok (vs, rest) ->
  forall p, p ∈ params -> rest !! p = None.
Proof. intros H p Hp. eapply bind_args_rest_None; eauto. Qed.

(** ** Events of a run *)

Lemma events_of_trace {A} (m : M A) s evs :
  trace (snd (m s)) = trace s ++ evs -> events_of m s = evs.
Proof. intros H. unfold events_of. rewrite H. apply drop_app_length. Qed.

Lemma events_of_run {A} (m : M A) s r h' evs :
  m s = (r, State h' (trace s ++ evs)) -> events_of m s = evs.
Proof. intros H. apply events_of_trace. now rewrite H. Qed.

(** ** The two messages of the validator never coincide *)



(** ** The validator and the factory, run *)

Lemma array_at_Some h x a :
  array_at h x = Some a <-> exists l, x = VRef l /\ h !! l = Some (ONdarray a).
Proof.
  unfold array_at. split.
  - destruct x as [| | | | |l]; try discriminate.
    destruct (h !! l) as [[]|] eqn:El; try discriminate.
    intros H. inversion H; subst. eauto.
  - intros (l & -> & ->). reflexivity.
Qed.

Lemma isinstance_array_at h x :
  isinstance_ndarray h x =
  match array_at h x with Some _ => true | None => false end.
Proof.
  unfold isinstance_ndarray, array_at.
  destruct x as [| | | | |l]; try reflexivity.
  now destruct (h !! l) as [[]|].
Qed.

Lemma verdict_array_at h x :
  verdict_of h x =
  match array_at h x with
  | Some a => if (ndim a =? 2)%nat then Valid else WrongRank
  | None => WrongType
  end.
Proof.
  unfold verdict_of, array_at.
  destruct x as [| | | | |l]; try reflexivity.
  now destruct (h !! l) as [[]|].
Qed.

Lemma lookup_ndim_array h x a :
  array_at h x = Some a -> lookup_ndim h x = Some (VInt (Z.of_nat (ndim a))).
Proof.
  intros H. apply array_at_Some in H as (l & -> & Hl).
  unfold lookup_ndim. now rewrite Hl.
Qed.

Lemma rejection_None h x : rejection h x = None <-> verdict_of h x = Valid.
Proof.
  unfold rejection. rewrite verdict_array_at.
  destruct (array_at h x) as [a|]; [|split; discriminate].
  destruct (ndim a =? 2)%nat; split; congruence.
Qed.

Lemma validate_run x s :
  validate x s =
  (match rejection (heap s) x with
   | None => Ok tt
   | Some (e, _) => Raise e
   end,
   State (match rejection (heap s) x with
          | None => heap s
          | Some (_, h') => h'
          end)
         (trace s ++ validate_events (heap s) x)).
Proof.
  unfold _validate_factory_timeseries, rejection, validate_events, getattr_ndim,
    fstring, bind, log, get_heap, ret, raise.
  destruct s as [h tr]; simpl.
  rewrite isinstance_array_at, verdict_array_at.
  destruct (array_at h x) as [a|] eqn:Ea; simpl.
  - rewrite (lookup_ndim_array _ _ _ Ea). simpl. rewrite of_nat_eqb_2.
    destruct (ndim a =? 2)%nat; simpl; [|rewrite Ea]; now rewrite <- app_assoc.
  - rewrite Ea. simpl.
    now destruct (format_object x h) as [[sx|e] h'].
Qed.

Lemma validate_ok x s :
  verdict_of (heap s) x = Valid ->
  validate x s = (Ok tt, extend s [EvValidate x; EvNdim x]).
Proof.
  intros H. rewrite validate_run. unfold validate_events. rewrite H.
  apply rejection_None in H. now rewrite H.
Qed.

Lemma validate_fails x s e h' :
  rejection (heap s) x = Some (e, h') ->
  validate x s = (Raise e, State h' (trace s ++ validate_events (heap s) x)).
Proof. intros H. rewrite validate_run. now rewrite H. Qed.

Lemma specialize_unresolved self x y kwargs s :
  resolve (heap s) self = None ->
  specialize self x y kwargs s =
  (Raise (Exception AttributeError "object has no attribute '_distance_factory'"), s).
Proof.
  unfold resolve, _distance_factory, bind, get_heap, raise.
  destruct self as [| | | | |l]; try reflexivity.
  destruct (heap s !! l) as [[]|]; try reflexivity.
  intros ->. reflexivity.
Qed.

Lemma specialize_resolved self x y kwargs s impl :
  resolve (heap s) self = Some impl ->
  specialize self x y kwargs s =
  (fst (impl self x y kwargs (heap s)),
   State (snd (impl self x y kwargs (heap s)))
         (trace s ++ [EvSpecialize self x y kwargs])).
Proof.
  unfold resolve, _distance_factory, bind, get_heap, raise, log.
  destruct self as [| | | | |l]; try discriminate.
  destruct (heap s !! l) as [[]|]; try discriminate.
  intros ->. simpl. now destruct (impl _ _ _ _ _).
Qed.

Lemma factory_invalid_x self x y kwargs s e h' :
  rejection (heap s) x = Some (e, h') ->
  factory self x y kwargs s =
  (Raise e, State h' (trace s ++ validate_events (heap s) x)).
Proof.
  intros H. unfold distance_factory.
  now rewrite (bind_raise _ _ _ _ _ (validate_fails x s e h' H)).
Qed.

Lemma factory_invalid_y self x y kwargs s e h' :
  verdict_of (heap s) x = Valid ->
  rejection (heap s) y = Some (e, h') ->
  factory self x y kwargs s =
  (Raise e,
   State h' (trace s ++ [EvValidate x; EvNdim x] ++ validate_events (heap s) y)).
Proof.
  intros Hx Hy. unfold distance_factory.
  rewrite (bind_ok _ _ _ _ _ (validate_ok x s Hx)).
  rewrite (bind_raise _ _ _ _ _
             (validate_fails y (extend s [EvValidate x; EvNdim x]) e h' Hy)).
  simpl. now rewrite <- app_assoc.
Qed.

Lemma factory_unresolved self x y kwargs s :
  verdict_of (heap s) x = Valid ->
  verdict_of (heap s) y = Valid ->
  resolve (heap s) self = None ->
  factory self x y kwargs s =
  (Raise (Exception AttributeError "object has no attribute '_distance_factory'"),
   extend s [EvValidate x; EvNdim x; EvValidate y; EvNdim y]).
Proof.
  intros Hx Hy Hr. unfold distance_factory.
  rewrite (bind_ok _ _ _ _ _ (validate_ok x s Hx)).
  rewrite (bind_ok _ _ _ _ _ (validate_ok y (extend s _) Hy)).
  rewrite extend_extend. simpl app.
  erewrite bind_raise; [reflexivity|].
  now apply specialize_unresolved.
Qed.

Lemma factory_resolved self x y kwargs s impl :
  verdict_of (heap s) x = Valid ->
  verdict_of (heap s) y = Valid ->
  resolve (heap s) self = Some impl ->
  factory self x y kwargs s =
  (checked (fst (impl self x y kwargs (heap s)))
           (snd (impl self x y kwargs (heap s))),
   State (snd (impl self x y kwargs (heap s)))
         (trace s ++ [EvValidate x; EvNdim x; EvValidate y; EvNdim y;
                      EvSpecialize self x y kwargs])).
Proof.
  intros Hx Hy Hr. unfold distance_factory.
  rewrite (bind_ok _ _ _ _ _ (validate_ok x s Hx)).
  rewrite (bind_ok _ _ _ _ _ (validate_ok y (extend s _) Hy)).
  rewrite extend_extend. simpl app.
  pose proof (specialize_resolved self x y kwargs
                (extend s [EvValidate x; EvNdim x; EvValidate y; EvNdim y])
                impl Hr) as Hrun.
  simpl in Hrun. rewrite <- app_assoc in Hrun. simpl in Hrun.
  destruct (impl self x y kwargs (heap s)) as [[c|e] h'] eqn:Ei; simpl in *.
  - rewrite (bind_ok _ _ _ _ _ Hrun).
    unfold bind, get_heap, ret, raise. simpl.
    now destruct (hasattr h' c "signatures").
  - now rewrite (bind_raise _ _ _ _ _ Hrun).
Qed.

Lemma factory_runs self x y kwargs s :
  factory_run self x y kwargs s (factory self x y kwargs s).
Proof.
  destruct (rejection (heap s) x) as [[e h']|] eqn:Ex.
  { rewrite (factory_invalid_x self x y kwargs s e h' Ex).
    now constructor. }
  apply rejection_None in Ex.
  destruct (rejection (heap s) y) as [[e h']|] eqn:Ey.
  { rewrite (factory_invalid_y self x y kwargs s e h' Ex Ey).
    now constructor. }
  apply rejection_None in Ey.
  destruct (resolve (heap s) self) as [impl|] eqn:Er.
  - rewrite (factory_resolved self x y kwargs s impl Ex Ey Er).
    now constructor.
  - rewrite (factory_unresolved self x y kwargs s Ex Ey Er).
    now constructor.
Qed.

Lemma checked_Ok r h c :
  checked r h = Ok c -> r = Ok c /\ hasattr h c "signatures" = true.
Proof.
  destruct r as [c'|e]; simpl; [|discriminate].
  destruct (hasattr h c' "signatures") eqn:E; [|discriminate].
  intros H. inversion H; subst. auto.
Qed.

Lemma validate_accepts_iff x s :
  fst (validate x s) = Ok tt <-> verdict_of (heap s) x = Valid.
Proof.
  rewrite validate_run. simpl. rewrite <- rejection_None.
  destruct (rejection (heap s) x) as [[e h']|]; split; congruence.
Qed.


(** ** Properties of the validator *)

Lemma verdict_wrong_rank h l a :
  h !! l = Some (ONdarray a) -> ndim a <> 2%nat ->
  verdict_of h (VRef l) = WrongRank.
Proof.
  intros Hl Hn. unfold verdict_of. rewrite Hl.
  now destruct (Nat.eqb_spec (ndim a) 2).
Qed.


Lemma rejection_wrong_rank h l a :
  h !! l = Some (ONdarray a) -> ndim a <> 2%nat ->
  rejection h (VRef l) = Some (wrong_rank_error (format_array a), h).
Proof.
  intros Hl Hn. unfold rejection, array_at. rewrite Hl.
  now destruct (Nat.eqb_spec (ndim a) 2).
Qed.


(** A run of the factory on an operand that fails validation records no
    call of the specializer and ends in an exception. *)
Lemma factory_rejects_without_specializing self x y kwargs s :
  verdict_of (heap s) x <> Valid \/ verdict_of (heap s) y <> Valid ->
  filter is_specialize (events_of (factory self x y kwargs) s) = [] /\
  exists e, fst (factory self x y kwargs s) = Raise e.
Proof.
  intros H.
  destruct (rejection (heap s) x) as [[e h']|] eqn:Ex.
  - rewrite (events_of_run _ _ _ _ _
               (factory_invalid_x self x y kwargs s e h' Ex)).
    rewrite (factory_invalid_x self x y kwargs s e h' Ex). simpl.
    split; [|eauto].
    unfold validate_events. now destruct (verdict_of (heap s) x).
  - apply rejection_None in Ex.
    destruct H as [H|H]; [congruence|].
    destruct (rejection (heap s) y) as [[e h']|] eqn:Ey;
      [|apply rejection_None in Ey; congruence].
    rewrite (events_of_run _ _ _ _ _
               (factory_invalid_y self x y kwargs s e h' Ex Ey)).
    rewrite (factory_invalid_y self x y kwargs s e h' Ex Ey). simpl.
    split; [|eauto].
    unfold validate_events. now destruct (verdict_of (heap s) y).
Qed.

(** C3: an array whose number of dimensions is not exactly two is rejected
    by the validator with the wrong-rank error, and a call of
    [distance_factory] that receives such an array as [x] or as [y] never
    invokes the metric's [_distance_factory]. *)
Theorem wrong_rank_rejected_before_specialization s l a :
  heap s !! l = Some (ONdarray a) ->
  ndim a <> 2%nat ->
  fst (validate (VRef l) s) = Raise (wrong_rank_error (format_array a)) /\
  forall self other kwargs,
    filter is_specialize
      (events_of (factory self (VRef l) other kwargs) s) = [] /\
    filter is_specialize
      (events_of (factory self other (VRef l) kwargs) s) = [].
Proof.
  intros Hl Hn.
  pose proof (verdict_wrong_rank _ _ _ Hl Hn) as Hv.
  split.
  - now rewrite (validate_fails _ _ _ _ (rejection_wrong_rank _ _ _ Hl Hn)).
  - intros self other kwargs. split.
    + apply factory_rejects_without_specializing. left. congruence.
    + apply factory_rejects_without_specializing. right. congruence.
Qed.




(** ** Properties of the factory *)

(** C2: when the metric's [_distance_factory] returns a value without the
    attribute [signatures], [distance_factory] raises the compilation
    error, a [RuntimeError] that is none of the validator's errors, instead
    of returning that value; and whatever the call, [distance_factory]
    either raises or returns a value that carries [signatures]. *)
Theorem unmarked_result_raises_compilation_error self x y kwargs s :
  (forall impl c,
      verdict_of (heap s) x = Valid ->
      verdict_of (heap s) y = Valid ->
      resolve (heap s) self = Some impl ->
      fst (impl self x y kwargs (heap s)) = Ok c ->
      hasattr (snd (impl self x y kwargs (heap s))) c "signatures" = false ->
      fst (factory self x y kwargs s) = Raise compilation_error /\
      forall sx, compilation_error <> wrong_type_error sx /\
                 compilation_error <> wrong_rank_error sx) /\
  match factory self x y kwargs s with
  | (Ok c, s') => hasattr (heap s') c "signatures" = true
  | (Raise _, _) => True
  end.
Proof.
  split.
  - intros impl c Hx Hy Hr Hc Hmark.
    rewrite (factory_resolved self x y kwargs s impl Hx Hy Hr). simpl.
    rewrite Hc. simpl. rewrite Hmark. split; [reflexivity|].
    intros sx. split; discriminate.
  - destruct (factory_runs self x y kwargs s) as [e|e| |impl Hx Hy Hr];
      try exact I.
    destruct (checked _ _) as [c|e] eqn:Ec; [|exact I].
    simpl. now apply checked_Ok in Ec.
Qed.

(** C5, as the code has it: the validator is entered first on [x]; it is
    entered on [y], as a check of its own, exactly when [x] passed; and the
    metric's [_distance_factory] is entered, once, only after both operands
    passed (and the method was found). No call happens twice. *)
Theorem validation_precedes_specialization self x y kwargs s :
  let calls := filter is_call (events_of (factory self x y kwargs) s) in
  match verdict_of (heap s) x, verdict_of (heap s) y with
  | Valid, Valid =>
      match resolve (heap s) self with
      | Some _ =>
          calls = [EvValidate x; EvValidate y; EvSpecialize self x y kwargs]
      | None => calls = [EvValidate x; EvValidate y]
      end
  | Valid, _ => calls = [EvValidate x; EvValidate y]
  | _, _ => calls = [EvValidate x]
  end.
Proof.
  intros calls. subst calls. unfold events_of.
  destruct (factory_runs self x y kwargs s)
    as [e h' Hx|e h' Hx Hy|Hx Hy Hr|impl Hx Hy Hr];
    simpl; rewrite drop_app_length.
  - assert (verdict_of (heap s) x <> Valid) as Hv.
    { intros Hv. apply rejection_None in Hv. congruence. }
    unfold validate_events.
    destruct (verdict_of (heap s) x); [congruence|reflexivity|reflexivity].
  - assert (verdict_of (heap s) y <> Valid) as Hv.
    { intros Hv. apply rejection_None in Hv. congruence. }
    rewrite Hx. unfold validate_events.
    destruct (verdict_of (heap s) y); [congruence|reflexivity|reflexivity].
  - now rewrite Hx, Hy, Hr.
  - now rewrite Hx, Hy, Hr.
Qed.


(** C10: when [distance_factory] succeeds, what it returns is the very
    value the metric's [_distance_factory] returned, and the heap is the
    one that call left: the facade wraps, copies or replaces nothing. *)
Theorem factory_returns_specializer_result self x y kwargs s c s' :
  factory self x y kwargs s = (Ok c, s') ->
  exists impl,
    resolve (heap s) self = Some impl /\
    impl self x y kwargs (heap s) = (Ok c, heap s').
Proof.
  intros H.
  destruct (factory_runs self x y kwargs s)
    as [e h' Hx|e h' Hx Hy|Hx Hy Hr|impl Hx Hy Hr]; try discriminate.
  exists impl. split; [assumption|].
  injection H as Hc Hs. apply checked_Ok in Hc as [Hc _].
  subst s'. simpl. rewrite <- Hc.
  now destruct (impl self x y kwargs (heap s)).
Qed.

(** ** The static method [distance] *)

Lemma bind_args_raises fname params : forall args kwargs e,
  bind_args fname params args kwargs = Raise e -> exc_type e = TypeError.
Proof.
  induction params as [|p params IH]; intros args kwargs e H; simpl in H.
  - destruct args; [discriminate|]. now inversion H.
  - destruct args as [|a args].
    + destruct (kwargs !! p); [|now inversion H].
      destruct (bind_args fname params [] (delete p kwargs)) as [[vs rest]|e'] eqn:E;
        [discriminate|].
      inversion H; subst. eauto.
    + destruct (kwargs !! p); [now inversion H|].
      destruct (bind_args fname params args kwargs) as [[vs rest]|e'] eqn:E;
        [discriminate|].
      inversion H; subst. eauto.
Qed.

Lemma bind_args_rest_subseteq fname params : forall args kwargs vs rest,
  bind_args fname params args kwargs = Ok (vs, rest) -> rest ⊆ kwargs.
Proof.
  induction params as [|p params IH]; intros args kwargs vs rest H; simpl in H.
  - destruct args; [|discriminate]. now inversion H.
  - destruct args as [|a args].
    + destruct (kwargs !! p); [|discriminate].
      destruct (bind_args fname params [] (delete p kwargs)) as [[vs' rest']|] eqn:E;
        [|discriminate].
      inversion H; subst. etrans; [eapply IH; eassumption|].
      apply delete_subseteq.
    + destruct (kwargs !! p); [discriminate|].
      destruct (bind_args fname params args kwargs) as [[vs' rest']|] eqn:E;
        [|discriminate].
      inversion H; subst. eauto.
Qed.

(** Reached through the class with two positional arguments, the factory
    takes [x] for [self] and [y] for [x], and finds nothing for [y]. *)
Lemma distance_raises x y kwargs s :
  kwargs !! "y" = None ->
  exists msg,
    distance format_array format_object method_table x y kwargs s =
    (Raise (Exception TypeError msg), s).
Proof.
  intros Hy. unfold distance, call_distance_factory. simpl.
  destruct (kwargs !! "self"); [eexists; reflexivity|].
  destruct (kwargs !! "x"); [eexists; reflexivity|].
  rewrite Hy. eexists; reflexivity.
Qed.

(** However [distance] is called, the call ends in a [TypeError] before any
    validation or specialization, and the state is untouched. *)
Lemma call_distance_raises args kwargs s :
  exists msg,
    call_distance format_array format_object method_table args kwargs s =
    (Raise (Exception TypeError msg), s).
Proof.
  unfold call_distance.
  destruct (bind_args "distance" ["x"; "y"] args kwargs) as [[vs rest]|e] eqn:E.
  - pose proof (bind_args_length _ _ _ _ _ _ E) as Hlen.
    pose proof (bind_args_rest _ _ _ _ _ _ E "y") as Hy.
    destruct vs as [|x [|y [|z vs]]]; try discriminate.
    apply distance_raises. apply Hy. set_solver.
  - apply bind_args_raises in E. destruct e as [cls msg]. simpl in E. subst.
    eexists; reflexivity.
Qed.

(** ** Further properties of the facade *)


(** X2: however the static method [distance] is called, with whatever
    positional and keyword arguments, the call raises a [TypeError] and does
    nothing else: no operand is validated, no metric is asked and the state
    is as before. *)
Theorem distance_call_only_raises args kwargs s :
  (exists msg,
      fst (call_distance format_array format_object method_table args kwargs s)
      = Raise (Exception TypeError msg)) /\
  snd (call_distance format_array format_object method_table args kwargs s) = s /\
  events_of (call_distance format_array format_object method_table args kwargs) s
  = [].
Proof.
  destruct (call_distance_raises args kwargs s) as [msg H].
  unfold events_of. rewrite H. simpl.
  split; [eauto|]. split; [reflexivity|]. apply drop_all.
Qed.

(** X3: the error of the first malformed operand is the one the caller gets:
    when the validator raises on [x] the factory raises that very exception
    and ends in the state the validator left, whatever [y] and [self] are;
    when [x] passes and the validator then raises on [y], the factory raises
    the exception of [y] and ends in the state that second check left. *)
Theorem first_invalid_operand_is_reported self x y kwargs s e :
  (fst (_validate_factory_timeseries format_array format_object x s) = Raise e ->
   distance_factory format_array format_object method_table self x y kwargs s =
   (Raise e, snd (_validate_factory_timeseries format_array format_object x s))) /\
  (fst (_validate_factory_timeseries format_array format_object x s) = Ok tt ->
   fst (_validate_factory_timeseries format_array format_object y
          (snd (_validate_factory_timeseries format_array format_object x s)))
   = Raise e ->
   distance_factory format_array format_object method_table self x y kwargs s =
   (Raise e,
    snd (_validate_factory_timeseries format_array format_object y
           (snd (_validate_factory_timeseries format_array format_object x s))))).
Proof.
  unfold distance_factory. split.
  - intros He. apply bind_raise.
    destruct (validate x s) as [r s1]. simpl in *. now subst.
  - intros Hx He.
    rewrite (bind_ok _ _ s tt (snd (validate x s))).
    + apply bind_raise.
      destruct (validate y (snd (validate x s))) as [r s2]. simpl in *.
      now subst.
    + destruct (validate x s) as [r s1]. simpl in *. now subst.
Qed.

(** X4: the factory does not undo what the metric did: once both operands
    passed and [_distance_factory] ran, the heap after the call is the heap
    that method left, whether the factory returns, raises the compilation
    error or passes on the metric's exception; and the method ran on the
    heap the caller had. *)
Theorem specializer_effects_are_kept self x y kwargs s impl :
  fst (validate x s) = Ok tt ->
  fst (validate y s) = Ok tt ->
  resolve (heap s) self = Some impl ->
  heap (snd (factory self x y kwargs s)) = snd (impl self x y kwargs (heap s)).
Proof.
  intros Hx Hy Hr.
  apply validate_accepts_iff in Hx. apply validate_accepts_iff in Hy.
  now rewrite (factory_resolved self x y kwargs s impl Hx Hy Hr).
Qed.


(** X6: a configuration cannot use the names [self], [x] or [y]: called with
    the three positional arguments, [distance_factory] runs its body on
    exactly the given keywords when none of them bears one of these names,
    and otherwise raises a [TypeError] before anything is validated. *)
Theorem reserved_keywords_are_refused self x y kwargs s :
  (kwargs !! "self" = None /\ kwargs !! "x" = None /\ kwargs !! "y" = None ->
   call_distance_factory format_array format_object method_table
     [self; x; y] kwargs s =
   factory self x y kwargs s) /\
  (is_Some (kwargs !! "self") \/ is_Some (kwargs !! "x") \/
   is_Some (kwargs !! "y") ->
   exists msg,
     call_distance_factory format_array format_object method_table
       [self; x; y] kwargs s =
     (Raise (Exception TypeError msg), s)).
Proof.
  unfold call_distance_factory. simpl. split.
  - intros (-> & -> & ->). reflexivity.
  - intros H.
    destruct (kwargs !! "self"); [eexists; reflexivity|].
    destruct (kwargs !! "x"); [eexists; reflexivity|].
    destruct (kwargs !! "y"); [eexists; reflexivity|].
    destruct H as [[? H]|[[? H]|[? H]]]; discriminate H.
Qed.

(** X7: whatever the argument list, a call of [distance_factory] either
    fails to bind its arguments, raising a [TypeError] with the state
    untouched, or runs the body on a receiver, two operands and a
    configuration that holds only keywords the caller gave, none of them
    named [self], [x] or [y]. *)
Theorem factory_call_binds_or_raises
    (args : list value) (kwargs : gmap string value) (s : state) :
  (exists msg,
      call_distance_factory format_array format_object method_table
        args kwargs s =
      (Raise (Exception TypeError msg), s)) \/
  (exists self x y config,
      call_distance_factory format_array format_object method_table
        args kwargs s =
      distance_factory format_array format_object method_table
        self x y config s /\
      config ⊆ kwargs /\
      config !! "self" = None /\ config !! "x" = None /\ config !! "y" = None).
Proof.
  unfold call_distance_factory.
  destruct (bind_args "distance_factory" ["self"; "x"; "y"] args kwargs)
    as [[vs rest]|e] eqn:E.
  - pose proof (bind_args_length _ _ _ _ _ _ E) as Hlen.
    pose proof (bind_args_rest _ _ _ _ _ _ E) as Hrest.
    pose proof (bind_args_rest_subseteq _ _ _ _ _ _ E) as Hsub.
    destruct vs as [|self [|x [|y [|z vs]]]]; try discriminate.
    right. exists self, x, y, rest. split; [reflexivity|]. split; [assumption|].
    repeat split; apply Hrest; set_solver.
  - left. apply bind_args_raises in E. destruct e as [cls msg]. simpl in E.
    subst. eexists; reflexivity.
Qed.

End Properties.

(** ** The examples of the spec, run *)

(** C1: on [x = [[0, 1, 2]]], [y = [[0, 0, 0]]] and the metric
    sum-of-absolute-difference, [distance_factory] returns a callable that
    gives 3.0 on [(x, y)], while [distance(x, y)] raises a [TypeError]: the
    two entry points do not agree. *)
Theorem distance_fails_where_factory_succeeds :
  (exists c s',
      example_factory the_metric series_x series_y ∅ example_state = (Ok c, s') /\
      fst (call_callable c series_x series_y s') = Ok (VFloat 3%float)) /\
  fst (call_distance example_format_array example_format_object example_classes
         [series_x; series_y] ∅ example_state) =
  Raise (Exception TypeError
           "distance_factory() missing 1 required positional argument: 'y'").
Proof.
  split; [|reflexivity].
  exists (VRef 10%positive),
         (snd (example_factory the_metric series_x series_y ∅ example_state)).
  split; vm_compute; reflexivity.
Qed.

Lemma unmarked_result_witness :
  fst (example_factory interpreted_metric series_x series_y ∅ example_state) =
  Raise compilation_error.
Proof.
  apply (proj1 (unmarked_result_raises_compilation_error
                  example_format_array example_format_object example_classes
                  interpreted_metric series_x series_y ∅ example_state)
               interpreted_factory (VRef 10%positive));
    reflexivity.
Defined.

Lemma wrong_rank_witness :
  fst (example_validate flat_series example_state) =
    Raise (wrong_rank_error
             (example_format_array (NdArray [3%nat] float64 [0; 1; 2]%float))) /\
  forall self other kwargs,
    filter is_specialize
      (events_of (example_factory self flat_series other kwargs) example_state)
    = [] /\
    filter is_specialize
      (events_of (example_factory self other flat_series kwargs) example_state)
    = [].
Proof.
  apply (wrong_rank_rejected_before_specialization
           example_format_array example_format_object example_classes
           example_state 4%positive
           (NdArray [3%nat] float64 [0; 1; 2]%float)).
  - reflexivity.
  - unfold ndim. simpl. lia.
Defined.






(** An object that answers [ndim] with 2 but is not a numpy array is turned
    away for its type, its [ndim] unread. *)
Example data_frame_is_rejected_for_its_type :
  lookup_ndim example_heap data_frame = Some (VInt 2) /\
  example_validate data_frame example_state =
    (Raise (wrong_type_error "<object>"),
     extend example_state [EvValidate data_frame]).
Proof. split; reflexivity. Qed.

(** With a flat series for [x] the call ends in the first check: [y] is
    never validated. *)
Lemma flat_x_ends_before_y_is_validated :
  filter is_validate
    (events_of (example_factory the_metric flat_series series_y ∅) example_state)
  = [EvValidate flat_series] /\
  filter is_validate
    (events_of (example_factory the_metric flat_series series_y ∅) example_state)
  <> [EvValidate flat_series; EvValidate series_y].
Proof. split; [reflexivity | discriminate]. Qed.



Lemma factory_returns_specializer_result_witness :
  exists impl,
    resolve example_classes example_heap the_metric = Some impl /\
    impl the_metric series_x series_y ∅ example_heap =
    (Ok (VRef 10%positive),
     heap (snd (example_factory the_metric series_x series_y ∅ example_state))).
Proof.
  apply (factory_returns_specializer_result
           example_format_array example_format_object example_classes
           the_metric series_x series_y ∅ example_state (VRef 10%positive)
           (snd (example_factory the_metric series_x series_y ∅ example_state))).
  reflexivity.
Defined.

(** ** The further properties on the examples *)


Lemma flat_x_is_reported_before_nested_y :
  example_factory the_metric flat_series nested_list ∅ example_state =
  (Raise (wrong_rank_error
            (example_format_array (NdArray [3%nat] float64 [0; 1; 2]%float))),
   snd (example_validate flat_series example_state)).
Proof.
  apply (proj1 (first_invalid_operand_is_reported
                  example_format_array example_format_object example_classes
                  the_metric flat_series nested_list ∅ example_state
                  (wrong_rank_error
                     (example_format_array
                        (NdArray [3%nat] float64 [0; 1; 2]%float))))).
  reflexivity.
Defined.

Lemma uncompiled_function_stays_allocated :
  heap (snd (example_factory interpreted_metric series_x series_y ∅
               example_state)) =
  snd (interpreted_factory interpreted_metric series_x series_y ∅ example_heap).
Proof.
  apply (specializer_effects_are_kept
           example_format_array example_format_object example_classes
           interpreted_metric series_x series_y ∅ example_state
           interpreted_factory);
    reflexivity.
Defined.


(** A dispatcher that has compiled nothing passes the check as well. *)
Example lazy_dispatcher_passes_the_check :
  fst (distance_factory example_format_array example_format_object
         more_classes lazy_metric series_x series_y ∅ more_state) =
  Ok (VRef 23%positive) /\
  heap (snd (distance_factory example_format_array example_format_object
               more_classes lazy_metric series_x series_y ∅ more_state))
  !! 23%positive =
  Some (ODispatcher [] sum_abs_diff).
Proof. split; reflexivity. Qed.

Lemma keyword_x_is_refused :
  exists msg,
    call_distance_factory example_format_array example_format_object
      example_classes [the_metric; series_x; series_y] {[ "x" := VInt 1 ]}
      example_state =
    (Raise (Exception TypeError msg), example_state).
Proof.
  apply (proj2 (reserved_keywords_are_refused
                  example_format_array example_format_object example_classes
                  the_metric series_x series_y {[ "x" := VInt 1 ]}
                  example_state)).
  right. left. exists (VInt 1). reflexivity.
Defined.
